(** * avatar-system: the in-memory image derivative cache of [server.js]

    A shallow embedding of the request handlers of the Express server that
    read and write the module-level [imageCache] map:

    - [GET    /api/users/:userId/avatar]       (server.js, lines 224-308)
    - [POST   /api/users/:userId/avatar]       (server.js, lines 173-221)
    - [DELETE /api/users/:userId/avatar]       (server.js, lines 334-362)
    - [clearCacheByPrefix]                     (images variant, lines 64-71)
    - [GET    /api/admin/images/:imageId/file] (images variant, lines 573-651)
    - [PUT    /api/admin/images/:imageId]      (images variant, lines 654-711)
    - [DELETE /api/admin/images/:imageId]      (images variant, lines 714-735)
    - [requireAdmin], [authorizeUserAccess]    (images variant, lines 94-113, 435-447)

    PocketBase, [fetch] and [sharp] are external collaborators: they are the
    fields of a [World] record, and every call to one of them is logged in
    the handler state, next to the cache. *)

From stdpp Require Import gmap strings list fin_maps.

(** ** Data *)

(** A Node [Buffer]. *)
Abbreviation Buffer := (list Byte.byte).

(** [const imageCache = new Map()]: string keys, buffers as values. *)
Abbreviation Cache := (gmap string (list Byte.byte)).

(** The JavaScript values that the [sizes] table can produce: own properties
    are numbers or [null], a missing property is [undefined], and a property
    name that the object literal inherits from [Object.prototype] yields the
    inherited function (or object), here [JInherited]. *)
Inductive jsval : Type :=
  | JUndefined
  | JNull
  | JNum (n : nat)
  | JInherited (name : string).

(** ToBoolean, as used by [||] and [if]. *)
Definition truthy (v : jsval) : bool :=
  match v with
  | JUndefined | JNull => false
  | JNum n => negb (Nat.eqb n 0)
  | JInherited _ => true
  end.

(** [a || b] *)
Definition js_or (a b : jsval) : jsval := if truthy a then a else b.

(** The property names every object literal inherits from
    [Object.prototype]. *)
Definition objectPrototypeKeys : list string :=
  [ "constructor"; "__defineGetter__"; "__defineSetter__"; "hasOwnProperty";
    "__lookupGetter__"; "__lookupSetter__"; "isPrototypeOf";
    "propertyIsEnumerable"; "toString"; "valueOf"; "__proto__";
    "toLocaleString" ].

Fixpoint own_property (props : list (string * jsval)) (k : string) : option jsval :=
  match props with
  | [] => None
  | (k', v) :: rest => if String.eqb k' k then Some v else own_property rest k
  end.

(** [obj[k]] for an object literal with own properties [props]. *)
Definition js_get (props : list (string * jsval)) (k : string) : jsval :=
  match own_property props k with
  | Some v => v
  | None => if bool_decide (k ∈ objectPrototypeKeys) then JInherited k else JUndefined
  end.

(** [const sizes = { small: 100, medium: 300, large: 600, original: null }] *)
Definition sizes : list (string * jsval) :=
  [ ("small", JNum 100); ("medium", JNum 300); ("large", JNum 600);
    ("original", JNull) ].

(** [const targetSize = sizes[size] || sizes.medium;] *)
Definition targetSize (size : string) : jsval :=
  js_or (js_get sizes size) (js_get sizes "medium").

(** [key.startsWith(prefix)] *)
Fixpoint startsWith (key prefix : string) {struct prefix} : bool :=
  match prefix with
  | EmptyString => true
  | String p prefix' =>
      match key with
      | EmptyString => false
      | String k key' => if Ascii.eqb k p then startsWith key' prefix' else false
      end
  end.

(** [`${userId}-${size}`] (avatar handler) *)
Definition avatarCacheKey (userId size : string) : string :=
  userId +:+ "-" +:+ size.

(** [`image-${imageId}-${size}`] (image handler) *)
Definition imageCacheKey (imageId size : string) : string :=
  "image-" +:+ imageId +:+ "-" +:+ size.

(** The variants the [sizes] table enumerates. *)
Definition variants : list string := ["small"; "medium"; "large"; "original"].

(** [clearCacheByPrefix]: walk the keys of the map and delete each one that
    starts with [prefix]. Deleting the current key while iterating a [Map]
    does not disturb the iteration, so the walk sees every key once. *)
Definition clearCacheByPrefix (prefix : string) (imageCache : Cache) : Cache :=
  foldr (λ key acc, if startsWith key prefix then delete key acc else acc)
        imageCache (map_to_list imageCache).*1.

(** ** Exceptions, collaborators and responses *)

(** A thrown error: PocketBase's [ClientResponseError] carries a [status],
    a plain [Error] does not. *)
Record exn : Type := Exn { exn_status : option nat; exn_message : string }.

Inductive result (A : Type) : Type :=
  | Ok (a : A)
  | Throw (e : exn).
Arguments Ok {A} a.
Arguments Throw {A} e.

(** [new Error(message)] *)
Definition Error (message : string) : exn := Exn None message.

(** A PocketBase record restricted to the fields the handlers select:
    [id], [collectionId] and the file field ([avatar] of a user, [image] of
    an image). An absent file is the empty string. *)
Record PbRecord : Type := {
  rec_id : string;
  rec_file : string;
  rec_collectionId : string
}.

(** What [fetch] resolves to. *)
Record FetchResponse : Type := { resp_ok : bool; resp_body : Buffer }.

Inductive Fit : Type := cover | inside.

(** The authenticated user that [authenticateToken] stores in [req.user]. *)
Record AuthUser : Type := { auth_id : string; auth_admin : bool }.

(** [req.query] of the two GET handlers. *)
Record Query : Type := { q_size : option string; q_download : option string }.

Record World : Type := {
  (** [pb.collection(c).getOne(id, ...)] *)
  pb_getOne : string → string → result PbRecord;
  (** [pb.collection('users').update(id, formData)] with the new avatar, or
      with [{avatar: null}] when the buffer is [None] *)
  pb_update : string → option Buffer → result PbRecord;
  (** [fetch(url)] followed by [response.arrayBuffer()] *)
  http_fetch : string → result FetchResponse;
  (** [sharp(buf).resize(t, t, {fit, withoutEnlargement: true})
        .webp({quality: 80}).toBuffer()] *)
  sharp_resize : jsval → Fit → Buffer → result Buffer;
  (** [sharp(buf).resize(400, 400, {fit: 'cover', position: 'center'})
        .webp({quality: 80, effort: 6}).toBuffer()] *)
  sharp_optimize : Buffer → result Buffer;
  (** [process.env.NODE_ENV === 'development'] *)
  node_env_development : bool;
  (** [process.env.POCKETBASE_URL] *)
  env_POCKETBASE_URL : option string
}.

(** The external calls a handler makes, in order. *)
Inductive Call : Type :=
  | CallGetOne (collection id : string)
  | CallUpdate (id : string)
  | CallFetch (url : string)
  | CallSharp.

Inductive hval : Type := HStr (s : string) | HNum (n : nat).

Inductive Body : Type :=
  | Send (b : Buffer)
  | JsonError (error : string) (details : option string)
  | JsonSuccess (message : string).

Record Response : Type := {
  status : nat;
  headers : list (string * hval);
  body : Body
}.

Fixpoint header (name : string) (hs : list (string * hval)) : option hval :=
  match hs with
  | [] => None
  | (n, v) :: rest => if String.eqb n name then Some v else header name rest
  end.

(** [res.set(headers); res.send(buf)] *)
Definition send (hs : list (string * hval)) (b : Buffer) : Response :=
  {| status := 200; headers := hs; body := Send b |}.

(** [res.status(code).json({ error, details })] *)
Definition json_error (code : nat) (error : string) (details : option string) : Response :=
  {| status := code; headers := []; body := JsonError error details |}.

(** [res.json({ success: true, message, ... })] *)
Definition json_success (message : string) : Response :=
  {| status := 200; headers := []; body := JsonSuccess message |}.

(** ** The handler monad: cache and call log as state, exceptions *)

Record St : Type := { imageCache : Cache; calls : list Call }.

Definition M (A : Type) : Type := St → St * result A.

Definition ret {A} (a : A) : M A := λ s, (s, Ok a).

Definition throw {A} (e : exn) : M A := λ s, (s, Throw e).

Definition bind {A B} (m : M A) (f : A → M B) : M B :=
  λ s, match m s with
       | (s', Ok a) => f a s'
       | (s', Throw e) => (s', Throw e)
       end.

(** [try { m } catch (error) { h error }] *)
Definition try_catch {A} (m : M A) (h : exn → M A) : M A :=
  λ s, match m s with
       | (s', Throw e) => h e s'
       | r => r
       end.

(** [await] on a collaborator: log the call, then continue or throw. *)
Definition await {A} (c : Call) (r : result A) : M A :=
  λ s, ({| imageCache := imageCache s; calls := calls s ++ [c] |}, r).

(** [imageCache.has(k) ? imageCache.get(k) : undefined] *)
Definition cache_get (k : string) : M (option Buffer) :=
  λ s, (s, Ok (imageCache s !! k)).

(** [imageCache.set(k, v)] *)
Definition cache_set (k : string) (v : Buffer) : M unit :=
  λ s, ({| imageCache := <[k := v]> (imageCache s); calls := calls s |}, Ok tt).

(** [imageCache.delete(k)] *)
Definition cache_delete (k : string) : M unit :=
  λ s, ({| imageCache := delete k (imageCache s); calls := calls s |}, Ok tt).

Definition cache_clear_prefix (prefix : string) : M unit :=
  λ s, ({| imageCache := clearCacheByPrefix prefix (imageCache s); calls := calls s |}, Ok tt).

Notation "x <- m ;; k" := (bind m (λ x, k))
  (at level 100, m at next level, right associativity).
Notation "m ;;; k" := (bind m (λ _, k))
  (at level 100, right associativity).

(** ** The handlers *)

(** The character [U+0022], for the quoted file name of
    [Content-Disposition]. *)
Definition dquote : string := String (Ascii.ascii_of_nat 34) EmptyString.

(** The [catch] block of the two GET handlers. *)
Definition catch_get (w : World) (notFound : string) (error : exn) : M Response :=
  if bool_decide (exn_status error = Some 404) then
    ret (json_error 404 notFound None)
  else
    ret (json_error 500 "Error interno del servidor"
           (if node_env_development w then Some (exn_message error) else None)).

(** [app.get('/api/users/:userId/avatar', ...)] *)
Definition getAvatar (w : World) (userId : string) (query : Query) : M Response :=
  try_catch
    (let size := default "medium" (q_size query) in
     let download := q_download query in
     let cacheKey := avatarCacheKey userId size in
     hit <- cache_get cacheKey ;;
     match hit with
     | Some cached =>
         ret (send [ ("Content-Type", HStr "image/webp");
                     ("Content-Length", HNum (length cached));
                     ("Cache-Control", HStr "public, max-age=86400");
                     ("X-Cache", HStr "HIT") ] cached)
     | None =>
         user <- await (CallGetOne "users" userId) (pb_getOne w "users" userId) ;;
         if String.eqb (rec_file user) "" then
           ret (json_error 404 "Avatar no encontrado" None)
         else
           let imageUrl :=
             "http://pocketbase:8090/api/files/" +:+ rec_collectionId user
               +:+ "/" +:+ rec_id user +:+ "/" +:+ rec_file user in
           response <- await (CallFetch imageUrl) (http_fetch w imageUrl) ;;
           if negb (resp_ok response) then
             throw (Error "No se pudo obtener la imagen de PocketBase")
           else
             let targetSize := targetSize size in
             processedImage <-
               (if truthy targetSize then
                  await CallSharp (sharp_resize w targetSize cover (resp_body response))
                else ret (resp_body response)) ;;
             cache_set cacheKey processedImage ;;;
             let headers :=
               [ ("Content-Type", HStr "image/webp");
                 ("Content-Length", HNum (length processedImage));
                 ("Cache-Control", HStr "public, max-age=86400");
                 ("X-Cache", HStr "MISS");
                 ("X-Image-Id", HStr userId) ] in
             let headers :=
               if bool_decide (download = Some "true") then
                 headers ++ [ ("Content-Disposition",
                               HStr ("attachment; filename=" +:+ dquote +:+ "avatar-"
                                       +:+ userId +:+ ".webp" +:+ dquote)) ]
               else headers in
             ret (send headers processedImage)
     end)
    (catch_get w "Usuario o avatar no encontrado").

(** [app.post('/api/users/:userId/avatar', authenticateToken,
    upload.single('avatar'), ...)]; [file] is [req.file.buffer]. The name
    given to the uploaded blob is not modelled. *)
Definition postAvatar (w : World) (user : AuthUser) (userId : string)
    (file : option Buffer) : M Response :=
  try_catch
    (if negb (String.eqb (auth_id user) userId) && negb (auth_admin user) then
       ret (json_error 403 "No tienes permisos para modificar este avatar" None)
     else
       match file with
       | None => ret (json_error 400 "No se proporcionó ninguna imagen" None)
       | Some buffer =>
           optimizedImage <- await CallSharp (sharp_optimize w buffer) ;;
           updatedUser <- await (CallUpdate userId)
                            (pb_update w userId (Some optimizedImage)) ;;
           cache_delete userId ;;;
           ret (json_success "Avatar actualizado exitosamente")
       end)
    (λ error,
       ret (json_error 500 "Error interno del servidor al procesar la imagen"
              (if node_env_development w then Some (exn_message error) else None))).

(** [app.delete('/api/users/:userId/avatar', authenticateToken, ...)] *)
Definition deleteAvatar (w : World) (user : AuthUser) (userId : string) : M Response :=
  try_catch
    (if negb (String.eqb (auth_id user) userId) && negb (auth_admin user) then
       ret (json_error 403 "No tienes permisos para eliminar este avatar" None)
     else
       updatedUser <- await (CallUpdate userId) (pb_update w userId None) ;;
       cache_clear_prefix userId ;;;
       ret (json_success "Avatar eliminado exitosamente"))
    (λ error, ret (json_error 500 "Error interno del servidor" None)).

(** [app.get('/api/admin/images/:imageId/file', ...)] *)
Definition getImageFile (w : World) (imageId : string) (query : Query) : M Response :=
  try_catch
    (let size := default "medium" (q_size query) in
     let cacheKey := imageCacheKey imageId size in
     hit <- cache_get cacheKey ;;
     match hit with
     | Some cached =>
         ret (send [ ("Content-Type", HStr "image/webp");
                     ("Content-Length", HNum (length cached));
                     ("Cache-Control", HStr "public, max-age=86400");
                     ("X-Cache", HStr "HIT") ] cached)
     | None =>
         image <- await (CallGetOne "images" imageId) (pb_getOne w "images" imageId) ;;
         if String.eqb (rec_file image) "" then
           ret (json_error 404 "Archivo de imagen no encontrado" None)
         else
           let baseUrl := default "http://localhost:8090" (env_POCKETBASE_URL w) in
           let imageUrl :=
             baseUrl +:+ "/api/files/" +:+ rec_collectionId image
               +:+ "/" +:+ rec_id image +:+ "/" +:+ rec_file image in
           response <- await (CallFetch imageUrl) (http_fetch w imageUrl) ;;
           if negb (resp_ok response) then
             throw (Error "No se pudo obtener la imagen de PocketBase")
           else
             let targetSize := targetSize size in
             processedImage <-
               (if truthy targetSize then
                  await CallSharp (sharp_resize w targetSize inside (resp_body response))
                else ret (resp_body response)) ;;
             cache_set cacheKey processedImage ;;;
             ret (send [ ("Content-Type", HStr "image/webp");
                         ("Content-Length", HNum (length processedImage));
                         ("Cache-Control", HStr "public, max-age=86400");
                         ("X-Cache", HStr "MISS") ] processedImage)
     end)
    (catch_get w "Imagen no encontrada").

(** ** The admin image routes (images variant) *)

(** [req.user.admin] as the user record delivers it: a boolean, a string,
    or absent. *)
Inductive AdminFlag : Type :=
  | AdminBool (b : bool)
  | AdminString (s : string)
  | AdminAbsent.

(** [req.user] as [authenticateToken] leaves it: [pb.authStore.model]. *)
Record ReqUser : Type := { user_id : string; user_admin : AdminFlag }.

(** ToBoolean of the flag, as in [!req.user.admin]. *)
Definition flag_truthy (f : AdminFlag) : bool :=
  match f with
  | AdminBool b => b
  | AdminString s => negb (String.eqb s "")
  | AdminAbsent => false
  end.

(** [req.user.admin === true] *)
Definition flag_is_true (f : AdminFlag) : bool :=
  match f with
  | AdminBool true => true
  | _ => false
  end.

(** [req.user.admin === 'true'] *)
Definition flag_is_true_string (f : AdminFlag) : bool :=
  match f with
  | AdminString s => String.eqb s "true"
  | _ => false
  end.

(** The user as the avatar handlers look at it: they compare [req.user.id]
    and test [!req.user.admin]. *)
Definition authUser (u : ReqUser) : AuthUser :=
  {| auth_id := user_id u; auth_admin := flag_truthy (user_admin u) |}.

(** A middleware answers the request ([Some]) or calls [next()] ([None]). *)

(** [requireAdmin]; a missing [req.user] makes [isAdmin] falsy. *)
Definition requireAdmin (user : option ReqUser) : option Response :=
  let isAdmin :=
    match user with
    | Some u => flag_is_true (user_admin u) || flag_is_true_string (user_admin u)
    | None => false
    end in
  if negb isAdmin then
    Some (json_error 403 "Acceso denegado. Se requiere rol de administrador." None)
  else None.

(** [authorizeUserAccess]; reading [req.user.id] of a missing [req.user]
    throws, and the [catch] block answers 500. *)
Definition authorizeUserAccess (user : option ReqUser) (userId : string)
    : option Response :=
  if String.eqb userId "" then
    Some (json_error 400 "ID de usuario requerido" None)
  else
    match user with
    | None => Some (json_error 500 "Error al verificar permisos" None)
    | Some u =>
        if negb (String.eqb (user_id u) userId) && negb (flag_is_true (user_admin u)) then
          Some (json_error 403 "No tienes permisos para acceder a este recurso" None)
        else None
    end.

(** The handler behind a middleware. *)
Definition guarded (answer : option Response) (handler : M Response) : M Response :=
  match answer with
  | Some resp => ret resp
  | None => handler
  end.

(** The collaborators of the admin routes that write. *)
Record ImageStore : Type := {
  (** [pb.collection('images').update(imageId, formData)], with the alias
      and the image the form carries *)
  pb_updateImage : string → option string → option Buffer → result PbRecord;
  (** [pb.collection('images').delete(imageId)] *)
  pb_deleteImage : string → result unit;
  (** [sharp(buf).resize(800, 800, {fit: 'inside', withoutEnlargement: true})
        .webp({quality: 80, effort: 6}).toBuffer()] *)
  sharp_optimizeImage : Buffer → result Buffer
}.

(** [await] on a collaborator of the admin routes. The call log keeps to
    the collaborators of the GET handlers. *)
Definition perform {A} (r : result A) : M A := λ s, (s, r).

(** [app.put('/api/admin/images/:imageId', ...)]: [alias] is
    [req.body.alias], [file] is [req.file.buffer]. *)
Definition putImage (w : World) (st : ImageStore) (imageId : string)
    (alias : option string) (file : option Buffer) : M Response :=
  try_catch
    (perform (pb_getOne w "images" imageId) ;;;
     let formAlias :=
       match alias with
       | Some a => if String.eqb a "" then None else Some a
       | None => None
       end in
     formImage <-
       match file with
       | Some buffer =>
           optimizedImage <- perform (sharp_optimizeImage st buffer) ;;
           cache_clear_prefix ("image-" +:+ imageId) ;;;
           ret (Some optimizedImage)
       | None => ret None
       end ;;
     perform (pb_updateImage st imageId formAlias formImage) ;;;
     ret (json_success "Imagen actualizada exitosamente"))
    (λ error,
       if bool_decide (exn_status error = Some 404) then
         ret (json_error 404 "Imagen no encontrada" None)
       else
         ret (json_error 500 "Error al actualizar imagen"
                (if node_env_development w then Some (exn_message error) else None))).

(** [app.delete('/api/admin/images/:imageId', ...)] *)
Definition deleteImage (st : ImageStore) (imageId : string) : M Response :=
  try_catch
    (perform (pb_deleteImage st imageId) ;;;
     cache_clear_prefix ("image-" +:+ imageId) ;;;
     ret (json_success "Imagen eliminada exitosamente"))
    (λ error,
       if bool_decide (exn_status error = Some 404) then
         ret (json_error 404 "Imagen no encontrada" None)
       else
         ret (json_error 500 "Error al eliminar imagen" None)).

(** The two routes with [requireAdmin] in front. *)
Definition putImageRoute (w : World) (st : ImageStore) (user : option ReqUser)
    (imageId : string) (alias : option string) (file : option Buffer) : M Response :=
  guarded (requireAdmin user) (putImage w st imageId alias file).

Definition deleteImageRoute (st : ImageStore) (user : option ReqUser)
    (imageId : string) : M Response :=
  guarded (requireAdmin user) (deleteImage st imageId).

(** A freshly started server: empty cache, nothing called yet. *)
Definition fresh : St := {| imageCache := ∅; calls := [] |}.

(** The state a request starts from when the cache holds [c]. *)
Definition with_cache (c : Cache) : St := {| imageCache := c; calls := [] |}.

(** ** A concrete world, for running the handlers *)

Definition original_bytes : Buffer := [Byte.x52; Byte.x49; Byte.x46; Byte.x46].

(** User ["u1"] has an avatar, user ["u2"] has none, image ["x"] has a
    file, any other id is unknown to PocketBase (404). Every stored file has
    the same bytes; a resize to [n] pixels is marked by prepending a byte
    that depends on [n], and a target that is not a number is refused. *)
Definition demo : World := {|
  pb_getOne := λ collection id,
    if String.eqb collection "users" && String.eqb id "u1" then
      Ok {| rec_id := "u1"; rec_file := "avatar.webp"; rec_collectionId := "users" |}
    else if String.eqb collection "users" && String.eqb id "u2" then
      Ok {| rec_id := "u2"; rec_file := ""; rec_collectionId := "users" |}
    else if String.eqb collection "images" && String.eqb id "x" then
      Ok {| rec_id := "x"; rec_file := "image.webp"; rec_collectionId := "images" |}
    else Throw (Exn (Some 404) "The requested resource wasn't found.");
  pb_update := λ id file,
    Ok {| rec_id := id; rec_file := match file with Some _ => "avatar.webp" | None => "" end;
          rec_collectionId := "users" |};
  http_fetch := λ url, Ok {| resp_ok := true; resp_body := original_bytes |};
  sharp_resize := λ t fit buf,
    match t with
    | JNum 100 => Ok (Byte.x01 :: buf)
    | JNum 300 => Ok (Byte.x03 :: buf)
    | JNum 600 => Ok (Byte.x06 :: buf)
    | _ => Throw (Error "Expected positive integer for width")
    end;
  sharp_optimize := λ buf, Ok buf;
  node_env_development := false;
  env_POCKETBASE_URL := None
|}.

Definition query (size download : option string) : Query :=
  {| q_size := size; q_download := download |}.

(** A signed-in user without the admin flag. *)
Definition owner (id : string) : AuthUser := {| auth_id := id; auth_admin := false |}.

(** Image ["x"] can be updated and deleted; any other id is unknown. *)
Definition demoStore : ImageStore := {|
  pb_updateImage := λ id alias file,
    if String.eqb id "x" then
      Ok {| rec_id := "x"; rec_file := "image.webp"; rec_collectionId := "images" |}
    else Throw (Exn (Some 404) "The requested resource wasn't found.");
  pb_deleteImage := λ id,
    if String.eqb id "x" then Ok tt
    else Throw (Exn (Some 404) "The requested resource wasn't found.");
  sharp_optimizeImage := λ buf, Ok buf
|}.

(** A store whose update is refused (a validation failure, status 400). *)
Definition refusingStore : ImageStore := {|
  pb_updateImage := λ id alias file, Throw (Exn (Some 400) "Failed to update record.");
  pb_deleteImage := λ id, Throw (Exn (Some 400) "Failed to delete record.");
  sharp_optimizeImage := λ buf, Ok buf
|}.

(** The response a handler run ends with, and the [X-Cache] marker on it. *)
Definition reply (o : St * result Response) : option Response :=
  match o.2 with
  | Ok resp => Some resp
  | Throw _ => None
  end.

Definition origin (resp : Response) : option hval := header "X-Cache" (headers resp).


(** ** Strings *)

(** Let [simpl] compute an append whose left operand starts with a
    constructor. *)
Local Arguments String.append !_ _ / : simpl nomatch.

Lemma append_assoc (a b c : string) : (a +:+ b) +:+ c = a +:+ (b +:+ c).
Proof. induction a as [|x a IH]; simpl; [done | by rewrite IH]. Qed.

Lemma startsWith_append (p s : string) : startsWith (p +:+ s) p = true.
Proof.
  induction p as [|x p IH]; simpl; [done |].
  by rewrite Ascii.eqb_refl.
Qed.

Lemma startsWith_spec (key p : string) :
  startsWith key p = true ↔ ∃ s, key = p +:+ s.
Proof.
  split.
  - revert key. induction p as [|x p IH]; intros key H; simpl in *.
    + by exists key.
    + destruct key as [|k key]; [done |].
      destruct (Ascii.eqb_spec k x) as [->|]; [| done].
      destruct (IH _ H) as [s ->]. by exists s.
  - intros [s ->]. apply startsWith_append.
Qed.

(** Two prefixes of one string are comparable. *)
Lemma startsWith_comparable (a rest u : string) :
  startsWith (a +:+ rest) u = true →
  startsWith a u = true ∨ startsWith u a = true.
Proof.
  revert u. induction a as [|x a IH]; intros u H; simpl in *.
  - right. by destruct u.
  - destruct u as [|y u]; [by left |].
    simpl in *. destruct (Ascii.eqb_spec x y) as [->|]; [| done].
    rewrite Ascii.eqb_refl. by apply IH.
Qed.




Local Arguments String.append : simpl never.

(** ** The [sizes] table *)


Lemma targetSize_enumerated :
  targetSize "small" = JNum 100 ∧ targetSize "medium" = JNum 300 ∧
  targetSize "large" = JNum 600.
Proof. by repeat split. Qed.

Lemma targetSize_fallback (v : string) :
  v ∉ variants → v ∉ objectPrototypeKeys → targetSize v = JNum 300.
Proof.
  intros Hv Hp. unfold targetSize, js_get, sizes, own_property.
  repeat match goal with
  | |- context [String.eqb ?a v] =>
      destruct (String.eqb_spec a v) as [<-|_];
        [exfalso; apply Hv; unfold variants; set_solver |]
  end.
  by rewrite bool_decide_eq_false_2.
Qed.

(** ** [clearCacheByPrefix] *)

Lemma lookup_foldr_delete (p : string) (c : Cache) (ks : list string) (k : string) :
  foldr (λ key acc, if startsWith key p then delete key acc else acc) c ks !! k
  = if startsWith k p && bool_decide (k ∈ ks) then None else c !! k.
Proof.
  induction ks as [|a ks IH]; simpl.
  - by rewrite andb_false_r.
  - destruct (decide (a = k)) as [->|Hne].
    + rewrite (bool_decide_eq_true_2 (k ∈ k :: ks)) by set_solver.
      rewrite andb_true_r.
      destruct (startsWith k p) eqn:E; [by rewrite lookup_delete_eq |].
      by rewrite IH.
    + assert (bool_decide (k ∈ a :: ks) = bool_decide (k ∈ ks)) as ->.
      { apply bool_decide_ext. rewrite elem_of_cons.
        split; [by intros [->|?] | by right]. }
      destruct (startsWith a p); [rewrite lookup_delete_ne by done |]; apply IH.
Qed.

(** The loop removes exactly the keys that start with the prefix. *)
Lemma lookup_clearCacheByPrefix (p : string) (c : Cache) (k : string) :
  clearCacheByPrefix p c !! k = if startsWith k p then None else c !! k.
Proof.
  unfold clearCacheByPrefix. rewrite lookup_foldr_delete.
  destruct (startsWith k p); [| done]. simpl.
  case_bool_decide as Hin; [done |].
  destruct (c !! k) as [b|] eqn:E; [| done].
  exfalso. apply Hin. apply list_elem_of_fmap. exists (k, b).
  split; [done |]. by apply elem_of_map_to_list.
Qed.

Lemma clearCacheByPrefix_idempotent (p : string) (c : Cache) :
  clearCacheByPrefix p (clearCacheByPrefix p c) = clearCacheByPrefix p c.
Proof.
  apply map_eq. intros k. rewrite !lookup_clearCacheByPrefix.
  by destruct (startsWith k p).
Qed.

(** ** Running the handlers *)

(** Unfold the monad so that a handler run becomes a tree of matches on the
    cache lookup and on the collaborators' answers. *)
Ltac run :=
  unfold getAvatar, getImageFile, postAvatar, deleteAvatar, catch_get,
    try_catch, bind, await, cache_get, cache_set, cache_delete,
    cache_clear_prefix, ret, throw, reply, origin, send, json_error,
    json_success in *;
  simpl in *.

(** Split on every remaining match of the goal. *)
Ltac cases := repeat (case_match; simpl in *; simplify_eq; try done).

(** The GET handler always answers: every exception is caught. *)
Lemma getAvatar_responds (w : World) (userId : string) (q : Query) (s : St) :
  ∃ resp, (getAvatar w userId q s).2 = Ok resp.
Proof. run. cases; eauto. Qed.

(** A cached key is served from the map: same state, no call. *)
Lemma getAvatar_hit (w : World) (userId : string) (q : Query) (s : St) (cached : Buffer) :
  imageCache s !! avatarCacheKey userId (default "medium" (q_size q)) = Some cached →
  getAvatar w userId q s
  = (s, Ok (send [ ("Content-Type", HStr "image/webp");
                   ("Content-Length", HNum (length cached));
                   ("Cache-Control", HStr "public, max-age=86400");
                   ("X-Cache", HStr "HIT") ] cached)).
Proof. intros H. run. by rewrite H. Qed.


(** Every header of a successful MISS, with the attachment header exactly
    when [download] is the string ["true"]. *)
Lemma getAvatar_miss_headers (w : World) (userId : string) (q : Query) (s : St)
    (resp : Response) :
  imageCache s !! avatarCacheKey userId (default "medium" (q_size q)) = None →
  (getAvatar w userId q s).2 = Ok resp → status resp = 200 →
  ∃ b, body resp = Send b ∧
    header "Content-Type" (headers resp) = Some (HStr "image/webp") ∧
    header "Content-Length" (headers resp) = Some (HNum (length b)) ∧
    header "Cache-Control" (headers resp) = Some (HStr "public, max-age=86400") ∧
    header "X-Cache" (headers resp) = Some (HStr "MISS") ∧
    (q_download q = Some "true" →
       ∃ name, header "Content-Disposition" (headers resp)
               = Some (HStr ("attachment; filename=" +:+ name))).
Proof.
  intros Hmiss. run. rewrite Hmiss. cases; intros; simplify_eq/=.
  all: eexists; repeat split; eauto; try done.
  all: intros Hd;
    match goal with
    | H : bool_decide _ = false |- _ => by apply bool_decide_eq_false in H
    end.
Qed.

(** The four headers of a HIT. *)
Lemma getAvatar_hit_headers (w : World) (userId : string) (q : Query) (s : St)
    (cached : Buffer) :
  imageCache s !! avatarCacheKey userId (default "medium" (q_size q)) = Some cached →
  ∃ resp, (getAvatar w userId q s).2 = Ok resp ∧ body resp = Send cached ∧
    headers resp = [ ("Content-Type", HStr "image/webp");
                     ("Content-Length", HNum (length cached));
                     ("Cache-Control", HStr "public, max-age=86400");
                     ("X-Cache", HStr "HIT") ].
Proof. intros H. rewrite (getAvatar_hit _ _ _ _ _ H). eauto. Qed.

(** ** Keys *)

Lemma avatarCacheKey_longer (userId size : string) : userId ≠ avatarCacheKey userId size.
Proof.
  unfold avatarCacheKey. induction userId as [|x r IH].
  - discriminate.
  - intros E. apply IH. by injection E.
Qed.

(** No image key starts with a user id that neither is a prefix of
    ["image-"] nor has it as a prefix. *)
Lemma imageCacheKey_not_under (u imageId size : string) :
  startsWith u "image-" = false → startsWith "image-" u = false →
  startsWith (imageCacheKey imageId size) u = false.
Proof.
  intros H1 H2. destruct (startsWith (imageCacheKey imageId size) u) eqn:E; [| done].
  unfold imageCacheKey in E. apply startsWith_comparable in E as [E|E]; congruence.
Qed.

(** ** The mutation handlers and the cache *)

(** A successful upload deletes the key [userId]; every other run of the
    handler leaves the map alone. *)
Lemma postAvatar_cache (w : World) (user : AuthUser) (userId : string)
    (file : option Buffer) (s : St) :
  imageCache (postAvatar w user userId file s).1 = imageCache s ∨
  imageCache (postAvatar w user userId file s).1 = delete userId (imageCache s).
Proof. run. cases; auto. Qed.

(** So no derivative of [userId] is ever removed by an upload. *)
Lemma postAvatar_lookup_derivative (w : World) (user : AuthUser) (userId : string)
    (file : option Buffer) (s : St) (size : string) :
  imageCache (postAvatar w user userId file s).1 !! avatarCacheKey userId size
  = imageCache s !! avatarCacheKey userId size.
Proof.
  destruct (postAvatar_cache w user userId file s) as [->| ->]; [done |].
  apply lookup_delete_ne, avatarCacheKey_longer.
Qed.

(** A DELETE either fails (403, or 500 when the update throws) and leaves
    the map alone, or runs the prefix loop. *)
Lemma deleteAvatar_cache (w : World) (user : AuthUser) (userId : string) (s : St) :
  imageCache (deleteAvatar w user userId s).1 = imageCache s ∨
  imageCache (deleteAvatar w user userId s).1 = clearCacheByPrefix userId (imageCache s).
Proof. run. cases; auto. Qed.

(** When the DELETE succeeds, every key under the prefix is gone. *)
Lemma deleteAvatar_removes (w : World) (user : AuthUser) (userId : string) (s : St)
    (k : string) :
  (deleteAvatar w user userId s).2 = Ok (json_success "Avatar eliminado exitosamente") →
  startsWith k userId = true →
  imageCache (deleteAvatar w user userId s).1 !! k = None.
Proof.
  run. cases; intros _ Hk; simpl; rewrite lookup_clearCacheByPrefix; by rewrite Hk.
Qed.

Lemma deleteAvatar_lookup_other (w : World) (user : AuthUser) (userId : string) (s : St)
    (k : string) :
  startsWith k userId = false →
  imageCache (deleteAvatar w user userId s).1 !! k = imageCache s !! k.
Proof.
  intros Hk. destruct (deleteAvatar_cache w user userId s) as [->| ->]; [done |].
  by rewrite lookup_clearCacheByPrefix, Hk.
Qed.

(** ** Claims *)

(** C1. On the claim that a successful upload removes every cached
    derivative of the user: run on a cache that holds the [small] derivative
    of ["u1"], the upload handler succeeds and the entry is still there.
    The handler deletes the key ["u1"], which no derivative has. *)
Theorem postAvatar_keeps_derivatives :
  let s := with_cache {[ avatarCacheKey "u1" "small" := original_bytes ]} in
  let o := postAvatar demo (owner "u1") "u1" (Some original_bytes) s in
  o.2 = Ok (json_success "Avatar actualizado exitosamente") ∧
  imageCache o.1 !! avatarCacheKey "u1" "small" = Some original_bytes.
Proof.
  split; [reflexivity |].
  cbv zeta. rewrite postAvatar_lookup_derivative. apply lookup_singleton_eq.
Qed.

(** C2, amended. Invalidating [r2] leaves the entry of [(r1, v)] unchanged
    whenever [r2] is not a string prefix of the key [r1-v]; this holds for
    the prefix loop itself and for every run of the DELETE handler. *)
Theorem invalidate_frame (w : World) (user : AuthUser) (r1 r2 v : string) (s : St) :
  startsWith (avatarCacheKey r1 v) r2 = false →
  clearCacheByPrefix r2 (imageCache s) !! avatarCacheKey r1 v
    = imageCache s !! avatarCacheKey r1 v ∧
  imageCache (deleteAvatar w user r2 s).1 !! avatarCacheKey r1 v
    = imageCache s !! avatarCacheKey r1 v.
Proof.
  intros H. split.
  - by rewrite lookup_clearCacheByPrefix, H.
  - by apply deleteAvatar_lookup_other.
Qed.

Lemma invalidate_frame_witness :
  let s := with_cache {[ avatarCacheKey "u1" "small" := original_bytes ]} in
  startsWith (avatarCacheKey "u1" "small") "u2" = false ∧
  clearCacheByPrefix "u2" (imageCache s) !! avatarCacheKey "u1" "small"
    = imageCache s !! avatarCacheKey "u1" "small" ∧
  imageCache (deleteAvatar demo (owner "u2") "u2" s).1 !! avatarCacheKey "u1" "small"
    = imageCache s !! avatarCacheKey "u1" "small".
Proof.
  split; [reflexivity |].
  apply (invalidate_frame demo (owner "u2") "u1" "u2" "small"). reflexivity.
Defined.

(** C2, as stated, fails: deleting the avatar of user ["12"] removes the
    cached [small] derivative of the different user ["123"]. *)
Lemma invalidate_removes_longer_id :
  let s := with_cache {[ avatarCacheKey "123" "small" := original_bytes ]} in
  let o := deleteAvatar demo (owner "12") "12" s in
  "12" ≠ "123" ∧
  imageCache s !! avatarCacheKey "123" "small" = Some original_bytes ∧
  o.2 = Ok (json_success "Avatar eliminado exitosamente") ∧
  imageCache o.1 !! avatarCacheKey "123" "small" = None.
Proof.
  cbv zeta. split; [done |]. split; [apply lookup_singleton_eq |].
  split; [reflexivity |].
  by apply deleteAvatar_removes.
Qed.

(** C3. On the claim that [original] is served without a resize: the table
    lookup yields [null], the [||] replaces it by the medium size, and a
    request for the [original] of ["u1"] is resized to 300 like [medium]. *)
Theorem original_is_resized :
  js_get sizes "original" = JNull ∧
  targetSize "original" = JNum 300 ∧
  let o := getAvatar demo "u1" (query (Some "original") None) fresh in
  calls o.1 = [ CallGetOne "users" "u1";
                CallFetch "http://pocketbase:8090/api/files/users/u1/avatar.webp";
                CallSharp ] ∧
  (body <$> reply o) = Some (Send (Byte.x03 :: original_bytes)) ∧
  imageCache o.1 !! avatarCacheKey "u1" "original" = Some (Byte.x03 :: original_bytes).
Proof. repeat split; vm_compute; reflexivity. Qed.

(** C4, amended. A size [v] that is neither enumerated nor an inherited
    property name is resized like [medium]: when neither [r-v] nor
    [r-medium] is cached, the two requests get the same response and make
    the same calls. The result is stored under [v]'s own key [r-v], not
    under [r-medium]. *)
Theorem unrecognized_variant_on_miss (w : World) (r v : string)
    (d : option string) (s : St) :
  v ∉ variants → v ∉ objectPrototypeKeys →
  imageCache s !! avatarCacheKey r v = None →
  imageCache s !! avatarCacheKey r "medium" = None →
  let o := getAvatar w r (query (Some v) d) s in
  let om := getAvatar w r (query (Some "medium") d) s in
  o.2 = om.2 ∧ calls o.1 = calls om.1 ∧
  match o.2 with
  | Ok {| status := 200; body := Send b |} =>
      imageCache o.1 = <[avatarCacheKey r v := b]> (imageCache s) ∧
      imageCache om.1 = <[avatarCacheKey r "medium" := b]> (imageCache s)
  | _ => imageCache o.1 = imageCache s ∧ imageCache om.1 = imageCache s
  end.
Proof.
  intros Hv Hp Hkv Hkm. pose proof (targetSize_fallback v Hv Hp) as Ht.
  run. rewrite Hkv, Hkm, Ht. change (targetSize "medium") with (JNum 300).
  cases.
Qed.

Lemma unrecognized_variant_on_miss_witness :
  let o := getAvatar demo "u1" (query (Some "huge") None) fresh in
  let om := getAvatar demo "u1" (query (Some "medium") None) fresh in
  o.2 = om.2 ∧ calls o.1 = calls om.1 ∧
  match o.2 with
  | Ok {| status := 200; body := Send b |} =>
      imageCache o.1 = <[avatarCacheKey "u1" "huge" := b]> (imageCache fresh) ∧
      imageCache om.1 = <[avatarCacheKey "u1" "medium" := b]> (imageCache fresh)
  | _ => imageCache o.1 = imageCache fresh ∧ imageCache om.1 = imageCache fresh
  end.
Proof.
  apply (unrecognized_variant_on_miss demo "u1" "huge" None fresh).
  - apply (bool_decide_eq_false_1 ("huge" ∈ variants)). reflexivity.
  - apply (bool_decide_eq_false_1 ("huge" ∈ objectPrototypeKeys)). reflexivity.
  - reflexivity.
  - reflexivity.
Defined.

(** C4, as stated, fails: once [medium] of ["u1"] is cached, a request for
    the unrecognized size ["huge"] is a MISS that fetches, resizes and adds a
    second entry, while the request for [medium] is a HIT that adds none. *)
Lemma unrecognized_variant_not_medium :
  let s := (getAvatar demo "u1" (query (Some "medium") None) fresh).1 in
  let o := getAvatar demo "u1" (query (Some "huge") None) s in
  let om := getAvatar demo "u1" (query (Some "medium") None) s in
  ("huge" ∉ variants) ∧
  (origin <$> reply o) = Some (Some (HStr "MISS")) ∧
  (origin <$> reply om) = Some (Some (HStr "HIT")) ∧
  imageCache o.1 !! avatarCacheKey "u1" "huge" = Some (Byte.x03 :: original_bytes) ∧
  imageCache om.1 !! avatarCacheKey "u1" "huge" = None.
Proof.
  cbv zeta. split.
  - apply (bool_decide_eq_false_1 ("huge" ∈ variants)). reflexivity.
  - repeat split; vm_compute; reflexivity.
Qed.







(** C8. On the claim that every successful response asked for as a download
    carries [Content-Disposition]: a request with [download=true] for a
    cached key is a HIT whose headers are the four of the HIT branch, with
    no [Content-Disposition]; the same request on a fresh cache is a MISS
    that has it. *)
Theorem hit_download_no_disposition :
  let q := query (Some "medium") (Some "true") in
  let miss := getAvatar demo "u1" q fresh in
  let hit := getAvatar demo "u1" q miss.1 in
  (header "X-Cache" ∘ headers <$> reply miss) = Some (Some (HStr "MISS")) ∧
  (header "Content-Disposition" ∘ headers <$> reply miss)
    = Some (Some (HStr ("attachment; filename=" +:+ dquote +:+ "avatar-u1.webp"
                          +:+ dquote))) ∧
  (status <$> reply hit) = Some 200 ∧
  (header "X-Cache" ∘ headers <$> reply hit) = Some (Some (HStr "HIT")) ∧
  (header "Content-Disposition" ∘ headers <$> reply hit) = Some None.
Proof. repeat split; vm_compute; reflexivity. Qed.




(** C10, amended. For a user id that neither starts with ["image-"] nor is
    a prefix of it, no avatar key equals an image key, and no run of the
    avatar DELETE handler for that user changes an image entry. *)
Theorem keyspaces_disjoint (w : World) (user : AuthUser) (u i v1 v2 : string) (s : St) :
  startsWith u "image-" = false →
  startsWith "image-" u = false →
  avatarCacheKey u v1 ≠ imageCacheKey i v2 ∧
  imageCache (deleteAvatar w user u s).1 !! imageCacheKey i v2
    = imageCache s !! imageCacheKey i v2.
Proof.
  intros H1 H2. pose proof (imageCacheKey_not_under u i v2 H1 H2) as Hn. split.
  - intros E. rewrite <- E in Hn. unfold avatarCacheKey in Hn.
    by rewrite startsWith_append in Hn.
  - by apply deleteAvatar_lookup_other.
Qed.

Lemma keyspaces_disjoint_witness :
  let s := with_cache {[ imageCacheKey "x" "small" := original_bytes ]} in
  avatarCacheKey "u1" "medium" ≠ imageCacheKey "x" "small" ∧
  imageCache (deleteAvatar demo (owner "u1") "u1" s).1 !! imageCacheKey "x" "small"
    = imageCache s !! imageCacheKey "x" "small".
Proof.
  apply (keyspaces_disjoint demo (owner "u1") "u1" "x" "medium" "small").
  - reflexivity.
  - reflexivity.
Defined.

(** C10, as stated, fails: the avatar key of user ["image-x"] is the image
    key of image ["x"], and deleting the avatar of user ["image"] removes the
    entry that a request for the file of image ["x"] has cached. *)
Lemma keyspaces_overlap :
  let s := (getImageFile demo "x" (query (Some "small") None) fresh).1 in
  let o := deleteAvatar demo (owner "image") "image" s in
  avatarCacheKey "image-x" "small" = imageCacheKey "x" "small" ∧
  imageCache s !! imageCacheKey "x" "small" = Some (Byte.x01 :: original_bytes) ∧
  o.2 = Ok (json_success "Avatar eliminado exitosamente") ∧
  imageCache o.1 !! imageCacheKey "x" "small" = None.
Proof. repeat split; vm_compute; reflexivity. Qed.
